(** * smart-routes: the multi-stop travel-time estimator of [src/main.py]

    A shallow embedding of the Python program of [src/main.py] and the
    properties of its route estimator and delay model.

    - Python numbers are kept behind the interface [PyNumber]: the estimator
      adds, multiplies and divides, and [predict] tests for finiteness.
      Two instances are given: IEEE-754 binary64 ([PrimFloat.float]), the
      numbers CPython runs on, and exact rationals [Q].
    - [requests] and the remote traffic service are a [network]: the
      outcome of the n-th call of [requests.get] made by the process.
      Code that performs requests threads the number of calls made so far.
    - Exceptions are values of [exn]; code that can raise returns a
      [result].
    - [LinearRegression.fit] is scikit-learn's and not part of the
      repository; it is rendered in exact rational arithmetic.  The
      binary64 computation agrees with it on which inputs are rejected
      as long as nothing overflows, and on the coefficients only up to
      rounding and only on well-conditioned data. *)

From Stdlib Require Import ZArith QArith Qabs Qfield Lia Lqa List Bool.
From Stdlib Require Import Strings.String.
From Stdlib Require Import PrimFloat Uint63.
Import ListNotations.
#[local] Set Warnings "-register-all".

Set Implicit Arguments.

(* ================================================================== *)
(** ** Python values used by the program *)

(** Arithmetic of Python numbers, as far as the program uses it;
    [is_finite x] is false for an infinity or a NaN. *)
Class PyNumber (F : Type) : Type := {
  of_int : Z -> F;
  add : F -> F -> F;
  mul : F -> F -> F;
  truediv : F -> F -> F;
  is_finite : F -> bool
}.

(** Every rational is a finite number. *)
#[export] Instance Q_PyNumber : PyNumber Q := {
  of_int := inject_Z;
  add := Qplus;
  mul := Qmult;
  truediv := Qdiv;
  is_finite := fun _ => true
}.

(** Small integers convert to binary64 without rounding. *)
Definition float_of_int (z : Z) : float :=
  match z with
  | Zneg p => PrimFloat.opp (PrimFloat.of_uint63 (Uint63.of_Z (Zpos p)))
  | _ => PrimFloat.of_uint63 (Uint63.of_Z z)
  end.

#[export] Instance float_PyNumber : PyNumber float := {
  of_int := float_of_int;
  add := PrimFloat.add;
  mul := PrimFloat.mul;
  truediv := PrimFloat.div;
  is_finite := PrimFloat.is_finite
}.

(** What [response.json()] can return; [JNull] is Python's [None]. *)
Inductive pyjson : Type :=
| JNull
| JBool (b : bool)
| JNumber (q : Q)
| JString (s : string)
| JArray (items : list pyjson)
| JObject (members : list (string * pyjson)).

(** [x is None] *)
Definition is_None (v : pyjson) : bool :=
  match v with JNull => true | _ => false end.

(** The value [estimate_travel_time] returns: a number or a [str]. *)
Inductive pyvalue (F : Type) : Type :=
| PyFloat (x : F)
| PyStr (s : string).
Arguments PyFloat {F} x.
Arguments PyStr {F} s.

(* ================================================================== *)
(** ** Exceptions and results *)

(** Subclasses of [requests.exceptions.RequestException]:
    what [requests.get] raises, the [HTTPError] of [raise_for_status],
    and the [requests.exceptions.JSONDecodeError] of [json] on a body
    that is not JSON. *)
Inductive transport_error : Type := ConnectionError | Timeout | TooManyRedirects.

Inductive request_exception : Type :=
| Transport (e : transport_error)
| HTTPError (status : Z)
| JSONDecodeError.

(** [ValueError] and [RecursionError] are not [RequestException]s:
    the JSON decoder raises the first on an integer literal longer than
    the interpreter's digit limit and the second on a body nested too
    deeply, both on well-formed JSON. *)
Inductive exn : Type :=
| ValueError
| IndexError
| RecursionError
| RequestException (e : request_exception).

Inductive result (A : Type) : Type :=
| Ok (a : A)
| Raise (e : exn).
Arguments Ok {A} a.
Arguments Raise {A} e.

(** [l[i]] on a Python list, negative indices counting from the end. *)
Definition py_index {A : Type} (l : list A) (i : Z) : result A :=
  let n := Z.of_nat (List.length l) in
  let j := (if i <? 0 then i + n else i)%Z in
  if ((0 <=? j) && (j <? n))%Z
  then match nth_error l (Z.to_nat j) with
       | Some a => Ok a
       | None => Raise IndexError
       end
  else Raise IndexError.

(** [range(n)] *)
Definition range (n : Z) : list Z := map Z.of_nat (seq 0 (Z.to_nat n)).

(** [len(l)] *)
Definition len {A : Type} (l : list A) : Z := Z.of_nat (List.length l).

(* ================================================================== *)
(** ** The traffic service *)

(** The request URL is determined by the key and the two end points. *)
Record url (Loc : Type) : Type := Url {
  url_api_key : string;
  url_start : Loc;
  url_end : Loc
}.

(** The response [requests.get] hands back (the last one, when redirects
    were followed): its status and what calling [json()] on it does,
    return the decoded value or raise. *)
Record response : Type := Response {
  status_code : Z;
  json : result pyjson
}.

(** The outcome of the [n]-th call of [requests.get] of the process: a
    transport error is raised or a response is returned. *)
Definition network (Loc : Type) : Type :=
  nat -> url Loc -> transport_error + response.

(** Computations that call [requests.get]: the state is the number of
    calls made so far; it survives a raised exception. *)
Definition M (A : Type) : Type := nat -> result A * nat.

Definition ret {A : Type} (a : A) : M A := fun n => (Ok a, n).

Definition raise {A : Type} (e : exn) : M A := fun n => (Raise e, n).

Definition bind {A B : Type} (m : M A) (k : A -> M B) : M B :=
  fun n =>
    match m n with
    | (Ok a, n') => k a n'
    | (Raise e, n') => (Raise e, n')
    end.

Definition lift {A : Type} (r : result A) : M A := fun n => (r, n).

(** [try: m  except <class>: h] where [h e = None] when [e] is not of the
    class, in which case [e] propagates. *)
Definition try_except {A : Type} (m : M A) (h : exn -> option (M A)) : M A :=
  fun n =>
    match m n with
    | (Ok a, n') => (Ok a, n')
    | (Raise e, n') =>
        match h e with
        | Some handler => handler n'
        | None => (Raise e, n')
        end
    end.

Declare Scope py_scope.
Delimit Scope py_scope with py.
Notation "x <- m ;; k" := (bind m (fun x => k))
  (at level 61, m at next level, right associativity) : py_scope.
Notation "m ;;; k" := (bind m (fun _ => k))
  (at level 61, right associativity) : py_scope.
Open Scope py_scope.

(** [for x in xs: s = body(x, s)] *)
Fixpoint for_in {A S : Type} (xs : list A) (body : A -> S -> M S) (s : S) : M S :=
  match xs with
  | [] => ret s
  | x :: xs' => s' <- body x s ;; for_in xs' body s'
  end.

Section Requests.
Context {Loc : Type}.
Variable net : network Loc.

(** [requests.get(url)] *)
Definition requests_get (u : url Loc) : M response :=
  fun n =>
    (match net n u with
     | inl e => Raise (RequestException (Transport e))
     | inr r => Ok r
     end, S n).

(** [response.raise_for_status()] *)
Definition raise_for_status (r : response) : M unit :=
  if ((400 <=? status_code r) && (status_code r <? 600))%Z
  then raise (RequestException (HTTPError (status_code r)))
  else ret tt.

(** [response.json()] *)
Definition response_json (r : response) : M pyjson := lift (json r).

(** [get_real_time_traffic_data(api_key, start, end)]; the message
    printed by the handler is not modelled. *)
Definition get_real_time_traffic_data
    (api_key : string) (start end_ : Loc) : M pyjson :=
  try_except
    (let u := Url api_key start end_ in
     response <- requests_get u ;;
     raise_for_status response ;;;
     response_json response)
    (fun e =>
       match e with
       | RequestException _ => Some (ret JNull)
       | _ => None
       end).
End Requests.

(* ================================================================== *)
(** ** The delay model *)

(** A fitted [sklearn.linear_model.LinearRegression] with one feature. *)
Record LinearRegression (F : Type) : Type := Model {
  coef_ : F;
  intercept_ : F
}.

(** [model.predict(np.array([[distance]]))[0]]: the input is validated,
    an infinity or a NaN being rejected with a [ValueError], and then
    [X @ coef_ + intercept_] is evaluated. *)
Definition predict {F : Type} `{PyNumber F}
    (model : LinearRegression F) (distance : F) : result F :=
  if is_finite distance
  then Ok (add (mul distance (coef_ model)) (intercept_ model))
  else Raise ValueError.

(* ================================================================== *)
(** ** The leg estimator *)

Definition unavailable : string :=
  "Unable to estimate time due to lack of traffic data.".

Record leg (Loc F : Type) : Type := Leg {
  leg_from : Loc;
  leg_to : Loc;
  estimated_time : pyvalue F
}.

Section Estimator.
Context {F : Type} `{PyNumber F}.
Variable model : LinearRegression F.

(** [estimate_travel_time(distance, real_traffic_data)] *)
Definition estimate_travel_time
    (distance : F) (real_traffic_data : pyjson) : result (pyvalue F) :=
  if is_None real_traffic_data then Ok (PyStr unavailable)
  else
    match predict model distance with
    | Raise e => Raise e
    | Ok traffic_delay =>
        let real_time_factor := of_int 1 in
        let estimated_time :=
          add (mul (truediv distance (of_int 50)) (of_int 60))
              (mul traffic_delay real_time_factor) in
        Ok (PyFloat estimated_time)
    end.

Context {Loc : Type}.
Variable net : network Loc.

(** [optimize_route(locations, api_key)] *)
Definition optimize_route
    (locations : list Loc) (api_key : string) : M (list (leg Loc F)) :=
  let optimized_route := [] in
  for_in (range (len locations - 1))
    (fun i optimized_route =>
       start <- lift (py_index locations i) ;;
       end_ <- lift (py_index locations (i + 1)) ;;
       let distance := of_int 10 in
       traffic_data <- get_real_time_traffic_data net api_key start end_ ;;
       estimated_time <- lift (estimate_travel_time distance traffic_data) ;;
       ret (optimized_route ++ [Leg start end_ estimated_time]))
    optimized_route.
End Estimator.

(** What [main] prints. *)
Inductive printed (F : Type) : Type :=
| PrintedRoute (route : list (leg (Q * Q) F))
| PrintedError (e : exn).
Arguments PrintedRoute {F} route.
Arguments PrintedError {F} e.

(** [main()]: [except Exception] catches every exception of [exn]; the
    module's [model] is a parameter. *)
Definition main {F : Type} `{PyNumber F} (model : LinearRegression F)
    (net : network (Q * Q)) : M (printed F) :=
  let api_key := "YOUR_API_KEY"%string in
  let locations :=
    [(37.7749, -122.4194); (34.0522, -118.2437); (36.1699, -115.1398)] in
  try_except
    (route <- optimize_route model net locations api_key ;;
     ret (PrintedRoute route))
    (fun e => Some (ret (PrintedError e))).

(* ================================================================== *)
(** ** Fitting the delay model

    [LinearRegression().fit(X, y)] is scikit-learn's; [src/main.py] only
    calls it.  It is rendered by the steps the library takes for a dense
    single-feature problem with an intercept, in exact rational
    arithmetic: input validation, centring of [X] and [y], the
    minimum-norm least-squares solution on the centred data
    ([scipy.linalg.lstsq]) and the intercept recovered from the offsets.
    The rounding of binary64 is not part of this rendering: the
    coefficients of the program agree with it only up to rounding, and
    not at all on ill-conditioned data. *)

(** [np.sum] *)
Definition np_sum (l : list Q) : Q := fold_right Qplus 0 l.

(** [np.mean] *)
Definition np_mean (l : list Q) : Q := np_sum l / inject_Z (len l).

(** [np.dot] of two vectors *)
Definition np_dot (u v : list Q) : Q :=
  np_sum (map (fun p => fst p * snd p) (combine u v)).

(** [scipy.linalg.lstsq] for a single column [a]: the least-squares
    solution of minimum norm, which is 0 when the column vanishes. *)
Definition lstsq (a b : list Q) : Q :=
  if Qeq_bool (np_dot a a) 0 then 0 else np_dot a b / np_dot a a.

(** [model.fit(X, y)]: an empty [X] and arrays of different lengths are
    rejected by the validation with a [ValueError]. *)
Definition fit (X y : list Q) : result (LinearRegression Q) :=
  if (len X =? 0)%Z then Raise ValueError
  else if negb (len X =? len y)%Z then Raise ValueError
  else
    let X_offset := np_mean X in
    let y_offset := np_mean y in
    let X_centered := map (fun x => x - X_offset) X in
    let y_centered := map (fun v => v - y_offset) y in
    let coef := lstsq X_centered y_centered in
    Ok (Model coef (y_offset - X_offset * coef)).

(** The training data of the module. *)
Record training_set : Type := TrainingSet {
  distance : list Q;
  traffic_delay : list Q
}.

Definition historical_data : training_set :=
  TrainingSet [5; 10; 15; 20] [5; 10; 20; 25].

(* ================================================================== *)
(** ** The Python program of the file *)

(** Running the Python program that [src/main.py] presents (the code
    block of the file, not the prose around it) on training data [data]:
    the model is fitted by the module-level statements, then [main]
    runs. *)
Definition run_module (data : training_set) (net : network (Q * Q))
    : M (printed Q) :=
  model <- lift (fit (distance data) (traffic_delay data)) ;;
  main model net.

(* ================================================================== *)
(** ** Auxiliary definitions for the statements *)

(** The exception that escapes [get_real_time_traffic_data] on an outcome
    of [requests.get], if any: the one [json()] raises on a response that
    passed the status check, unless it is a [RequestException]. *)
Definition escaping (o : transport_error + response) : option exn :=
  match o with
  | inl _ => None
  | inr r =>
      if ((400 <=? status_code r) && (status_code r <? 600))%Z then None
      else match json r with
           | Ok _ => None
           | Raise (RequestException _) => None
           | Raise e => Some e
           end
  end.

(** What [get_real_time_traffic_data] does when its call of
    [requests.get] is the [n]-th of the process. *)
Definition snapshot {Loc : Type} (net : network Loc)
    (api_key : string) (start end_ : Loc) (n : nat) : result pyjson :=
  match net n (Url api_key start end_) with
  | inl _ => Ok JNull
  | inr r =>
      if ((400 <=? status_code r) && (status_code r <? 600))%Z then Ok JNull
      else match json r with
           | Ok v => Ok v
           | Raise (RequestException _) => Ok JNull
           | Raise e => Raise e
           end
  end.

(** What [optimize_route] does on a stop sequence, by recursion on the
    sequence; the first call of [requests.get] is the [n]-th of the
    process. *)
Fixpoint legs_from {F Loc : Type} `{PyNumber F}
    (model : LinearRegression F) (net : network Loc) (api_key : string)
    (n : nat) (locations : list Loc) : result (list (leg Loc F)) * nat :=
  match locations with
  | [] => (Ok [], n)
  | a :: rest =>
      match rest with
      | [] => (Ok [], n)
      | b :: _ =>
          match snapshot net api_key a b n with
          | Raise e => (Raise e, S n)
          | Ok v =>
              match estimate_travel_time model (of_int 10) v with
              | Raise e => (Raise e, S n)
              | Ok t =>
                  match legs_from model net api_key (S n) rest with
                  | (Ok legs, n') => (Ok (Leg a b t :: legs), n')
                  | (Raise e, n') => (Raise e, n')
                  end
              end
          end
      end
  end.

(** A provider whose answer does not depend on when it is asked. *)
Definition deterministic {Loc : Type} (net : network Loc) : Prop :=
  forall n1 n2 u, net n1 u = net n2 u.

(** A transport or HTTP-status failure of the [n]-th request. *)
Definition provider_fails {Loc : Type} (net : network Loc)
    (n : nat) (u : url Loc) : Prop :=
  match net n u with
  | inl _ => True
  | inr r => (400 <= status_code r < 600)%Z
  end.

(** No reply to the requests of a trip makes [json()] raise anything but
    a [RequestException]; the trip's first request is the [c]-th. *)
Definition no_escaping_error {Loc : Type} (net : network Loc)
    (api_key : string) (c : nat) (locations : list Loc) : Prop :=
  forall i a b,
    nth_error locations i = Some a ->
    nth_error locations (S i) = Some b ->
    escaping (net (c + i)%nat (Url api_key a b)) = None.

(** Sample providers. *)
Definition always_ok : network (Q * Q) :=
  fun _ _ => inr (Response 200 (Ok (JObject [("flow"%string, JNumber 1)]))).

Definition always_down : network (Q * Q) :=
  fun _ _ => inl ConnectionError.

Definition first_ok_then_503 : network (Q * Q) :=
  fun n _ =>
    match n with
    | O => inr (Response 200 (Ok (JBool true)))
    | _ => inr (Response 503 (Raise (RequestException JSONDecodeError)))
    end.

(** A provider that answers the first two requests and then times out. *)
Definition ok_twice_then_timeout : network (Q * Q) :=
  fun n _ =>
    match n with
    | O | S O => inr (Response 200 (Ok (JObject [("flow"%string, JNumber 1)])))
    | _ => inl Timeout
    end.

(** A reply that is not an error status but carries the JSON value
    [null]. *)
Definition replies_null : network (Q * Q) :=
  fun _ _ => inr (Response 200 (Ok JNull)).

(** A 200 reply whose body is one integer literal of more digits than the
    decoder converts: [json()] raises [ValueError]. *)
Definition replies_long_integer : network (Q * Q) :=
  fun _ _ => inr (Response 200 (Raise ValueError)).

(** The first request is answered 503, the later ones as by
    [replies_long_integer]. *)
Definition fails_then_long_integer : network (Q * Q) :=
  fun n _ =>
    match n with
    | O => inr (Response 503 (Raise (RequestException JSONDecodeError)))
    | _ => inr (Response 200 (Raise ValueError))
    end.

Definition three_stops : list (Q * Q) :=
  [(37.7749, -122.4194); (34.0522, -118.2437); (36.1699, -115.1398)].

(** Closed-form simple linear regression, as the specification words it:
    slope = covariance / variance, intercept = mean(delay) - slope *
    mean(distance). *)
Definition covariance (X y : list Q) : Q :=
  np_mean (map (fun p => (fst p - np_mean X) * (snd p - np_mean y))
             (combine X y)).

Definition variance (X : list Q) : Q :=
  np_mean (map (fun x => (x - np_mean X) * (x - np_mean X)) X).

Definition closed_form_slope (X y : list Q) : Q := covariance X y / variance X.

Definition closed_form_intercept (X y : list Q) : Q :=
  np_mean y - closed_form_slope X y * np_mean X.

(** At least two distinct distance values. *)
Definition two_distinct (X : list Q) : Prop :=
  exists i j xi xj,
    nth_error X i = Some xi /\ nth_error X j = Some xj /\ ~ xi == xj.

(** Numbers of moderate size: far from the overflow threshold of
    binary64, so that the sums and squares the fit forms are finite. *)
Definition moderate (l : list Q) : Prop :=
  forall x, In x l -> Qabs x <= inject_Z (2 ^ 400).

(** [x] agrees with [v] to the number of decimals [v] is written with,
    when [tol] is half a unit of the last decimal. *)
Definition approx (tol x v : Q) : Prop := Qabs (x - v) <= tol.

(** The scenario of the specification: slope 1.3, intercept -2.5 and
    [predict(10)] = 10.5, each to one decimal. *)
Definition scenario_as_specified (model : LinearRegression Q) : Prop :=
  approx 0.05 (coef_ model) 1.3 /\
  approx 0.05 (intercept_ model) (-2.5) /\
  exists t, predict model 10 = Ok t /\ approx 0.05 t 10.5.

Unset Implicit Arguments.

(* ================================================================== *)
(** ** Python lists and loops *)

Lemma py_index_nth_error {A : Type} (l : list A) (i : nat) (a : A) :
  nth_error l i = Some a -> py_index l (Z.of_nat i) = Ok a.
Proof.
  intros Hi.
  assert (Hlt : (i < List.length l)%nat)
    by (apply nth_error_Some; congruence).
  unfold py_index.
  destruct (Z.of_nat i <? 0)%Z eqn:Hneg; [apply Z.ltb_lt in Hneg; lia|].
  replace ((0 <=? Z.of_nat i)%Z) with true by (symmetry; apply Z.leb_le; lia).
  replace ((Z.of_nat i <? Z.of_nat (List.length l))%Z) with true
    by (symmetry; apply Z.ltb_lt; lia).
  simpl. now rewrite Nat2Z.id, Hi.
Qed.

Lemma range_len_pred {A : Type} (l : list A) :
  range (len l - 1) = map Z.of_nat (seq 0 (List.length l - 1)).
Proof.
  unfold range, len. f_equal. f_equal. lia.
Qed.

(* ================================================================== *)
(** ** The provider boundary *)

Section ProviderFacts.
Context {Loc : Type}.
Variable net : network Loc.

(** One call of [requests.get] is made, whatever the outcome. *)
Lemma get_real_time_traffic_data_eq (api_key : string) (a b : Loc) (n : nat) :
  get_real_time_traffic_data net api_key a b n
  = (snapshot net api_key a b n, S n).
Proof.
  unfold get_real_time_traffic_data, try_except, bind, requests_get, snapshot.
  destruct (net n (Url api_key a b)) as [e | r]; [reflexivity|].
  unfold raise_for_status.
  destruct ((400 <=? status_code r) && (status_code r <? 600))%Z;
    [reflexivity|].
  unfold ret, response_json, lift.
  destruct (json r) as [v | [ | | | q]]; reflexivity.
Qed.

Lemma snapshot_failure (api_key : string) (a b : Loc) (n : nat) :
  provider_fails net n (Url api_key a b) ->
  snapshot net api_key a b n = Ok JNull.
Proof.
  unfold provider_fails, snapshot.
  destruct (net n (Url api_key a b)) as [e | r]; [reflexivity|].
  intros [Hlo Hhi].
  apply Z.leb_le in Hlo. apply Z.ltb_lt in Hhi.
  now rewrite Hlo, Hhi.
Qed.

Lemma snapshot_escaping (api_key : string) (a b : Loc) (n : nat) (e : exn) :
  snapshot net api_key a b n = Raise e <->
  escaping (net n (Url api_key a b)) = Some e.
Proof.
  unfold snapshot, escaping.
  destruct (net n (Url api_key a b)) as [t | r]; [split; discriminate|].
  destruct ((400 <=? status_code r) && (status_code r <? 600))%Z;
    [split; discriminate|].
  destruct (json r) as [v | [ | | | q]];
    split; intros E; try discriminate; injection E as <-; reflexivity.
Qed.

Lemma snapshot_returns (api_key : string) (a b : Loc) (n : nat) :
  escaping (net n (Url api_key a b)) = None ->
  exists v, snapshot net api_key a b n = Ok v.
Proof.
  intros Hnone.
  destruct (snapshot net api_key a b n) as [v | e] eqn:E; [now exists v|].
  apply snapshot_escaping in E. congruence.
Qed.
End ProviderFacts.

(* ================================================================== *)
(** ** The loop of [optimize_route] *)

Section RouteFacts.
Context {F : Type} `{PyNumber F} {Loc : Type}.
Variable model : LinearRegression F.
Variable net : network Loc.
Variable api_key : string.

Lemma legs_from_cons (a b : Loc) (rest : list Loc) (c : nat) :
  legs_from model net api_key c (a :: b :: rest)
  = match snapshot net api_key a b c with
    | Raise e => (Raise e, S c)
    | Ok v =>
        match estimate_travel_time model (of_int 10) v with
        | Raise e => (Raise e, S c)
        | Ok t =>
            match legs_from model net api_key (S c) (b :: rest) with
            | (Ok legs, n') => (Ok (Leg a b t :: legs), n')
            | (Raise e, n') => (Raise e, n')
            end
        end
    end.
Proof. reflexivity. Qed.

(** The loop body, run at the position that follows [pre]. *)
Lemma loop_body_step (pre : list Loc) (a b : Loc) (rest : list Loc)
    (route : list (leg Loc F)) (c : nat) :
  let locations := pre ++ a :: b :: rest in
  let i := Z.of_nat (List.length pre) in
  (start <- lift (py_index locations i) ;;
   end_ <- lift (py_index locations (i + 1)) ;;
   traffic_data <- get_real_time_traffic_data net api_key start end_ ;;
   estimated_time <- lift (estimate_travel_time model (of_int 10) traffic_data) ;;
   ret (route ++ [Leg start end_ estimated_time])) c
  = match snapshot net api_key a b c with
    | Raise e => (Raise e, S c)
    | Ok v =>
        match estimate_travel_time model (of_int 10) v with
        | Raise e => (Raise e, S c)
        | Ok t => (Ok (route ++ [Leg a b t]), S c)
        end
    end.
Proof.
  intros locations i. subst locations i.
  assert (Ha : py_index (pre ++ a :: b :: rest) (Z.of_nat (List.length pre)) = Ok a).
  { apply py_index_nth_error.
    rewrite nth_error_app2 by lia. now rewrite Nat.sub_diag. }
  assert (Hb : py_index (pre ++ a :: b :: rest) (Z.of_nat (List.length pre) + 1) = Ok b).
  { replace (Z.of_nat (List.length pre) + 1)%Z
      with (Z.of_nat (S (List.length pre))) by lia.
    apply py_index_nth_error.
    rewrite nth_error_app2 by lia.
    now replace (S (List.length pre) - List.length pre)%nat with 1%nat by lia. }
  unfold bind, lift. rewrite Ha, Hb.
  rewrite get_real_time_traffic_data_eq.
  destruct (snapshot net api_key a b c) as [v | e]; [|reflexivity].
  destruct (estimate_travel_time model (of_int 10) v); reflexivity.
Qed.

Lemma loop_from (rest pre : list Loc) (route : list (leg Loc F)) (c : nat) :
  for_in (map Z.of_nat (seq (List.length pre) (List.length rest - 1)))
    (fun i optimized_route =>
       start <- lift (py_index (pre ++ rest) i) ;;
       end_ <- lift (py_index (pre ++ rest) (i + 1)) ;;
       traffic_data <- get_real_time_traffic_data net api_key start end_ ;;
       estimated_time <-
         lift (estimate_travel_time model (of_int 10) traffic_data) ;;
       ret (optimized_route ++ [Leg start end_ estimated_time]))
    route c
  = match legs_from model net api_key c rest with
    | (Ok legs, n') => (Ok (route ++ legs), n')
    | (Raise e, n') => (Raise e, n')
    end.
Proof.
  revert pre route c.
  induction rest as [|a rest IH]; intros pre route c.
  - simpl. unfold ret. now rewrite app_nil_r.
  - destruct rest as [|b rest].
    + simpl. unfold ret. now rewrite app_nil_r.
    + replace (List.length (a :: b :: rest) - 1)%nat
        with (S (List.length (b :: rest) - 1)) by (simpl; lia).
      cbn [seq map for_in].
      unfold bind at 1.
      rewrite (loop_body_step pre a b rest route c), legs_from_cons.
      destruct (snapshot net api_key a b c) as [v | e]; [|reflexivity].
      destruct (estimate_travel_time model (of_int 10) v) as [t | e];
        [|reflexivity].
      specialize (IH (pre ++ [a]) (route ++ [Leg a b t]) (S c)).
      rewrite <- app_assoc in IH. cbn [app] in IH.
      rewrite length_app in IH.
      change (List.length [a]) with 1%nat in IH.
      rewrite Nat.add_1_r in IH.
      rewrite IH.
      destruct (legs_from model net api_key (S c) (b :: rest)) as [[legs | e] n'];
        [|reflexivity].
      now rewrite <- app_assoc.
Qed.

(** [optimize_route] in terms of the recursion on the stop sequence. *)
Lemma optimize_route_eq (locations : list Loc) (c : nat) :
  optimize_route model net locations api_key c
  = legs_from model net api_key c locations.
Proof.
  unfold optimize_route. rewrite range_len_pred.
  pose proof (loop_from locations [] [] c) as Hloop.
  cbn [List.length app] in Hloop.
  etransitivity; [exact Hloop|].
  now destruct (legs_from model net api_key c locations) as [[legs | e] n'].
Qed.

(** The calls of [requests.get] made: at most one per leg, exactly one
    per leg when a route is returned, at least one before a raise. *)
Lemma legs_from_calls (locations : list Loc) (c : nat) :
  (c <= snd (legs_from model net api_key c locations)
     <= c + (List.length locations - 1))%nat /\
  (forall route,
      fst (legs_from model net api_key c locations) = Ok route ->
      snd (legs_from model net api_key c locations)
      = (c + (List.length locations - 1))%nat /\
      List.length route = (List.length locations - 1)%nat) /\
  (forall e,
      fst (legs_from model net api_key c locations) = Raise e ->
      (c < snd (legs_from model net api_key c locations))%nat).
Proof.
  revert c. induction locations as [|a rest IH]; intros c.
  - cbn. split; [lia|]. split.
    + intros route E. injection E as <-. split; [lia | reflexivity].
    + intros e E. discriminate.
  - destruct rest as [|b rest].
    + cbn. split; [lia|]. split.
      * intros route E. injection E as <-. split; [lia | reflexivity].
      * intros e E. discriminate.
    + rewrite legs_from_cons.
      replace (List.length (a :: b :: rest) - 1)%nat
        with (S (List.length (b :: rest) - 1)) by (simpl; lia).
      destruct (snapshot net api_key a b c) as [v | e0].
      2:{ cbn [fst snd]. split; [lia|]. split.
          - intros route E. discriminate.
          - intros e E. lia. }
      destruct (estimate_travel_time model (of_int 10) v) as [t | e0].
      2:{ cbn [fst snd]. split; [lia|]. split.
          - intros route E. discriminate.
          - intros e E. lia. }
      destruct (IH (S c)) as (Hbounds & Hok & Hraise).
      destruct (legs_from model net api_key (S c) (b :: rest))
        as [[legs | e0] n'] eqn:Erest; cbn [fst snd] in *.
      * split; [lia|]. split.
        -- intros route E. injection E as <-.
           destruct (Hok legs eq_refl) as [Hn Hl].
           cbn [List.length] in *. split; lia.
        -- intros e E. discriminate.
      * split; [lia|]. split.
        -- intros route E. discriminate.
        -- intros e E. lia.
Qed.

(** The legs of a returned route, position by position. *)
Lemma legs_from_nth (locations : list Loc) (c i : nat) (a b : Loc)
    (route : list (leg Loc F)) :
  fst (legs_from model net api_key c locations) = Ok route ->
  nth_error locations i = Some a ->
  nth_error locations (S i) = Some b ->
  exists v t,
    snapshot net api_key a b (c + i) = Ok v /\
    estimate_travel_time model (of_int 10) v = Ok t /\
    nth_error route i = Some (Leg a b t).
Proof.
  revert c i route.
  induction locations as [|x rest IH]; intros c i route Hrun Ha Hb.
  - destruct i; discriminate.
  - destruct rest as [|z rest]; [destruct i; discriminate|].
    rewrite legs_from_cons in Hrun.
    destruct (snapshot net api_key x z c) as [v | e] eqn:Ev; [|discriminate].
    destruct (estimate_travel_time model (of_int 10) v) as [t | e] eqn:Et;
      [|discriminate].
    destruct (legs_from model net api_key (S c) (z :: rest))
      as [[legs | e] n'] eqn:Erest; [|discriminate].
    cbn [fst] in Hrun. injection Hrun as <-.
    destruct i as [|i].
    + cbn in Ha, Hb. injection Ha as <-. injection Hb as <-.
      exists v, t. rewrite Nat.add_0_r. now repeat split.
    + cbn [nth_error] in Ha.
      change (nth_error (x :: z :: rest) (S (S i)))
        with (nth_error (z :: rest) (S i)) in Hb.
      destruct (IH (S c) i legs) as (v' & t' & Hv' & Ht' & Hn');
        [now rewrite Erest | assumption | assumption |].
      exists v', t'.
      replace (c + S i)%nat with (S c + i)%nat by lia.
      now repeat split.
Qed.

Lemma legs_from_In (locations : list Loc) (c : nat)
    (route : list (leg Loc F)) (r : leg Loc F) :
  fst (legs_from model net api_key c locations) = Ok route ->
  In r route ->
  exists i a b v t,
    nth_error locations i = Some a /\
    nth_error locations (S i) = Some b /\
    snapshot net api_key a b (c + i) = Ok v /\
    estimate_travel_time model (of_int 10) v = Ok t /\
    r = Leg a b t.
Proof.
  revert c route.
  induction locations as [|x rest IH]; intros c route Hrun Hin.
  - cbn in Hrun. injection Hrun as <-. contradiction.
  - destruct rest as [|z rest];
      [cbn in Hrun; injection Hrun as <-; contradiction|].
    rewrite legs_from_cons in Hrun.
    destruct (snapshot net api_key x z c) as [v | e] eqn:Ev; [|discriminate].
    destruct (estimate_travel_time model (of_int 10) v) as [t | e] eqn:Et;
      [|discriminate].
    destruct (legs_from model net api_key (S c) (z :: rest))
      as [[legs | e] n'] eqn:Erest; [|discriminate].
    cbn [fst] in Hrun. injection Hrun as <-.
    destruct Hin as [<- | Hin].
    + exists 0%nat, x, z, v, t. rewrite Nat.add_0_r. now repeat split.
    + destruct (IH (S c) legs) as (i & a & b & v' & t' & Ha & Hb & Hv' & Ht' & ->);
        [now rewrite Erest | assumption |].
      exists (S i), a, b, v', t'.
      replace (c + S i)%nat with (S c + i)%nat by lia.
      now repeat split.
Qed.

(** A route is returned when no leg raises. *)
Lemma legs_from_returns (locations : list Loc) (c : nat) :
  is_finite (of_int 10) = true ->
  no_escaping_error net api_key c locations ->
  exists route, fst (legs_from model net api_key c locations) = Ok route.
Proof.
  intros Hten. revert c.
  induction locations as [|x rest IH]; intros c Hnone; [now exists []|].
  destruct rest as [|z rest]; [now exists []|].
  rewrite legs_from_cons.
  destruct (snapshot_returns net api_key x z c) as [v Hv].
  { specialize (Hnone 0%nat x z eq_refl eq_refl).
    now rewrite Nat.add_0_r in Hnone. }
  rewrite Hv.
  assert (Ht : exists t, estimate_travel_time model (of_int 10) v = Ok t).
  { unfold estimate_travel_time, predict. rewrite Hten.
    destruct (is_None v); eexists; reflexivity. }
  destruct Ht as [t Ht]. rewrite Ht.
  destruct (IH (S c)) as [legs Hlegs].
  { intros i a b Ha Hb.
    replace (S c + i)%nat with (c + S i)%nat by lia.
    now apply Hnone. }
  destruct (legs_from model net api_key (S c) (z :: rest)) as [[l | e] n'];
    [|discriminate].
  eexists. reflexivity.
Qed.

Lemma estimate_travel_time_absent (distance : F) :
  estimate_travel_time model distance JNull = Ok (PyStr unavailable).
Proof. reflexivity. Qed.

(** With a present snapshot the estimate is the formula on the value
    [predict] returns, and it raises when [predict] does. *)
Lemma estimate_travel_time_present (distance : F) (v : pyjson) :
  is_None v = false ->
  estimate_travel_time model distance v
  = match predict model distance with
    | Ok delay =>
        Ok (PyFloat (add (mul (truediv distance (of_int 50)) (of_int 60))
                         (mul delay (of_int 1))))
    | Raise e => Raise e
    end.
Proof.
  intros Hv. unfold estimate_travel_time. rewrite Hv. reflexivity.
Qed.
End RouteFacts.

Section Determinism.
Context {F : Type} `{PyNumber F} {Loc : Type}.
Variable model : LinearRegression F.
Variable net : network Loc.
Variable api_key : string.
Hypothesis net_deterministic : deterministic net.

Lemma snapshot_deterministic (a b : Loc) (n1 n2 : nat) :
  snapshot net api_key a b n1 = snapshot net api_key a b n2.
Proof.
  unfold snapshot. now rewrite (net_deterministic n1 n2).
Qed.

Lemma legs_from_deterministic (locations : list Loc) (c1 c2 : nat) :
  fst (legs_from model net api_key c1 locations)
  = fst (legs_from model net api_key c2 locations).
Proof.
  revert c1 c2.
  induction locations as [|a rest IH]; intros c1 c2; [reflexivity|].
  destruct rest as [|b rest]; [reflexivity|].
  rewrite !legs_from_cons.
  rewrite (snapshot_deterministic a b c1 c2).
  destruct (snapshot net api_key a b c2) as [v | e]; [|reflexivity].
  destruct (estimate_travel_time model (of_int 10) v) as [t | e];
    [|reflexivity].
  specialize (IH (S c1) (S c2)).
  destruct (legs_from model net api_key (S c1) (b :: rest)) as [[l1 | e1] n1];
    destruct (legs_from model net api_key (S c2) (b :: rest)) as [[l2 | e2] n2];
    cbn [fst] in *; congruence.
Qed.
End Determinism.

Section RouteShape.
Context {F : Type} `{PyNumber F} {Loc : Type}.
Variable model : LinearRegression F.
Variable api_key : string.

Lemma legs_from_app (net : network Loc) (pre : list Loc) (a : Loc)
    (rest : list Loc) (c : nat) :
  legs_from model net api_key c (pre ++ a :: rest)
  = match legs_from model net api_key c (pre ++ [a]) with
    | (Ok first, n1) =>
        match legs_from model net api_key n1 (a :: rest) with
        | (Ok second, n2) => (Ok (first ++ second), n2)
        | (Raise e, n2) => (Raise e, n2)
        end
    | (Raise e, n1) => (Raise e, n1)
    end.
Proof.
  revert c. induction pre as [|x pre IH]; intros c.
  - cbn [app].
    change (legs_from model net api_key c [a]) with (@Ok (list (leg Loc F)) [], c).
    cbv beta iota.
    now destruct (legs_from model net api_key c (a :: rest)) as [[l | e] n].
  - destruct pre as [|z pre].
    + cbn [app]. rewrite !legs_from_cons.
      destruct (snapshot net api_key x a c) as [v | e]; [|reflexivity].
      destruct (estimate_travel_time model (of_int 10) v) as [t | e];
        [|reflexivity].
      change (legs_from model net api_key (S c) [a])
        with (@Ok (list (leg Loc F)) [], S c).
      cbv beta iota.
      now destruct (legs_from model net api_key (S c) (a :: rest))
        as [[l | e] n].
    + change ((x :: z :: pre) ++ a :: rest)
        with (x :: z :: (pre ++ a :: rest)).
      change ((x :: z :: pre) ++ [a]) with (x :: z :: (pre ++ [a])).
      rewrite !legs_from_cons.
      destruct (snapshot net api_key x z c) as [v | e]; [|reflexivity].
      destruct (estimate_travel_time model (of_int 10) v) as [t | e];
        [|reflexivity].
      change (z :: pre ++ a :: rest) with ((z :: pre) ++ a :: rest).
      change (z :: pre ++ [a]) with ((z :: pre) ++ [a]).
      rewrite (IH (S c)).
      destruct (legs_from model net api_key (S c) ((z :: pre) ++ [a]))
        as [[l1 | e1] n1]; [|reflexivity].
      now destruct (legs_from model net api_key n1 (a :: rest))
        as [[l2 | e2] n2].
Qed.

Lemma legs_from_frame (net1 net2 : network Loc) (locations : list Loc)
    (c : nat) :
  (forall i a b,
      nth_error locations i = Some a ->
      nth_error locations (S i) = Some b ->
      net1 (c + i)%nat (Url api_key a b) = net2 (c + i)%nat (Url api_key a b)) ->
  legs_from model net1 api_key c locations
  = legs_from model net2 api_key c locations.
Proof.
  revert c. induction locations as [|x rest IH]; intros c Hagree;
    [reflexivity|].
  destruct rest as [|z rest]; [reflexivity|].
  rewrite !legs_from_cons.
  assert (Hhead : snapshot net1 api_key x z c = snapshot net2 api_key x z c).
  { unfold snapshot.
    specialize (Hagree 0%nat x z eq_refl eq_refl).
    rewrite Nat.add_0_r in Hagree. now rewrite Hagree. }
  rewrite Hhead.
  rewrite (IH (S c)); [reflexivity|].
  intros i a b Ha Hb.
  replace (S c + i)%nat with (c + S i)%nat by lia.
  now apply Hagree.
Qed.

Lemma legs_from_all_fail (net : network Loc) (locations : list Loc) (c : nat) :
  (forall n u, provider_fails net n u) ->
  exists route,
    fst (legs_from model net api_key c locations) = Ok route /\
    List.length route = (List.length locations - 1)%nat /\
    (forall r, In r route -> estimated_time r = PyStr unavailable).
Proof.
  intros Hdown. revert c.
  induction locations as [|x rest IH]; intros c.
  - exists []. repeat split. intros r [].
  - destruct rest as [|z rest].
    + exists []. repeat split. intros r [].
    + rewrite legs_from_cons.
      rewrite (snapshot_failure net api_key x z c (Hdown _ _)).
      rewrite estimate_travel_time_absent.
      destruct (IH (S c)) as (legs & Hlegs & Hlen & Hall).
      destruct (legs_from model net api_key (S c) (z :: rest))
        as [[l | e] n']; cbn [fst] in Hlegs; [|discriminate].
      injection Hlegs as ->.
      exists (Leg x z (PyStr unavailable) :: legs).
      split; [reflexivity|]. split.
      * cbn [List.length] in *. lia.
      * intros r [<- | Hin]; [reflexivity | now apply Hall].
Qed.

Lemma returned_route_starts (net : network Loc) (locations : list Loc)
    (c : nat) (route : list (leg Loc F)) :
  fst (legs_from model net api_key c locations) = Ok route ->
  map (@leg_from Loc F) route = removelast locations /\
  map (@leg_to Loc F) route = tl locations.
Proof.
  revert c route. induction locations as [|a rest IH]; intros c route Hrun.
  - cbn in Hrun. injection Hrun as <-. now split.
  - destruct rest as [|b rest];
      [cbn in Hrun; injection Hrun as <-; now split|].
    rewrite legs_from_cons in Hrun.
    destruct (snapshot net api_key a b c) as [v | e]; [|discriminate].
    destruct (estimate_travel_time model (of_int 10) v) as [t | e];
      [|discriminate].
    destruct (legs_from model net api_key (S c) (b :: rest))
      as [[legs | e] n'] eqn:Erest; [|discriminate].
    cbn [fst] in Hrun. injection Hrun as <-.
    destruct (IH (S c) legs) as [Hs He]; [now rewrite Erest|].
    cbn [map leg_from leg_to tl]. rewrite Hs, He. now split.
Qed.
End RouteShape.

Section EstimateFacts.
Context {F : Type} `{PyNumber F}.
Variable model : LinearRegression F.

(** A numeric estimate comes from a present snapshot and from the value
    [predict] returned. *)
Lemma estimate_travel_time_numeric (distance x : F) (v : pyjson) :
  estimate_travel_time model distance v = Ok (PyFloat x) ->
  is_None v = false /\
  exists delay,
    predict model distance = Ok delay /\
    x = add (mul (truediv distance (of_int 50)) (of_int 60))
            (mul delay (of_int 1)).
Proof.
  unfold estimate_travel_time.
  destruct (is_None v); [discriminate|].
  destruct (predict model distance) as [delay | e]; [|discriminate].
  intros E. injection E as <-. split; [reflexivity|].
  now exists delay.
Qed.
End EstimateFacts.

(* ================================================================== *)
(** ** Properties of the leg estimator *)











(** C8: with a present snapshot the estimate does not depend on what the
    snapshot contains: any two snapshots other than [None] give the same
    estimate for the same distance and model. *)
Theorem snapshot_contents_irrelevant {F : Type} `{PyNumber F}
    (model : LinearRegression F) (distance : F) (s1 s2 : pyjson) :
  is_None s1 = false ->
  is_None s2 = false ->
  estimate_travel_time model distance s1
  = estimate_travel_time model distance s2.
Proof.
  intros H1 H2. unfold estimate_travel_time. now rewrite H1, H2.
Qed.

Lemma snapshot_contents_irrelevant_witness :
  estimate_travel_time (Model 1.4 (-2.5)) 10 (JBool true)
  = estimate_travel_time (Model 1.4 (-2.5)) 10
      (JObject [("jam"%string, JNumber 9)]).
Proof.
  apply (snapshot_contents_irrelevant (Model 1.4 (-2.5)) 10
           (JBool true) (JObject [("jam"%string, JNumber 9)]));
    reflexivity.
Defined.





(** On binary64 the estimate at distance 10 with slope 0x1.6666666666666p+0
    and intercept -2.5 is 23.5, and a non-finite distance is rejected. *)
Example float_estimate :
  estimate_travel_time (Model 0x1.6666666666666p+0 (-0x1.4p+1))%float
    10%float (JBool true)
  = Ok (PyFloat 0x1.78p+4%float).
Proof. vm_compute. reflexivity. Qed.

(** 10 is a finite number in both instances. *)
Example ten_is_finite :
  is_finite (of_int 10 : float) = true /\ is_finite (of_int 10 : Q) = true.
Proof. split; reflexivity. Qed.

Example float_estimate_infinite_distance :
  estimate_travel_time (Model 0x1.6666666666666p+0 (-0x1.4p+1))%float
    infinity (JBool true)
  = Raise ValueError /\
  estimate_travel_time (Model 0x1.6666666666666p+0 (-0x1.4p+1))%float
    nan (JBool true)
  = Raise ValueError /\
  estimate_travel_time (Model 0x1.6666666666666p+0 (-0x1.4p+1))%float
    infinity JNull
  = Ok (PyStr unavailable).
Proof. repeat split; vm_compute; reflexivity. Qed.

(* ================================================================== *)
(** ** Properties of the delay model *)

Lemma two_distinct_nonempty (X : list Q) : two_distinct X -> (len X =? 0)%Z = false.
Proof.
  intros (i & _ & xi & _ & Hi & _).
  destruct X; [destruct i; discriminate|]. reflexivity.
Qed.

Lemma fit_accepts (X y : list Q) :
  (len X =? 0)%Z = false ->
  List.length X = List.length y ->
  fit X y
  = Ok (Model
          (lstsq (map (fun x => x - np_mean X) X)
                 (map (fun v => v - np_mean y) y))
          (np_mean y
           - np_mean X * lstsq (map (fun x => x - np_mean X) X)
                               (map (fun v => v - np_mean y) y))).
Proof.
  intros Hne Hlen. unfold fit. rewrite Hne.
  replace (len X =? len y)%Z with true
    by (symmetry; apply Z.eqb_eq; unfold len; congruence).
  reflexivity.
Qed.

Lemma fit_rejects (X y : list Q) :
  X = [] \/ List.length X <> List.length y -> fit X y = Raise ValueError.
Proof.
  intros [-> | Hlen]; [reflexivity|].
  unfold fit. destruct (len X =? 0)%Z; [reflexivity|].
  replace (len X =? len y)%Z with false; [reflexivity|].
  symmetry. apply Z.eqb_neq. unfold len. lia.
Qed.

(** C4 as the code has it: fitting distance = [5, 10, 15, 20], delay =
    [5, 10, 20, 25] gives slope 1.4 and intercept -2.5, and [predict(10)]
    is 11.5; these are the values of the closed-form least-squares
    calculation. *)
Theorem fit_historical_data :
  exists model,
    fit (distance historical_data) (traffic_delay historical_data) = Ok model /\
    coef_ model == 1.4 /\
    intercept_ model == -2.5 /\
    (exists t, predict model 10 = Ok t /\ t == 11.5) /\
    closed_form_slope (distance historical_data) (traffic_delay historical_data)
    == 1.4 /\
    closed_form_intercept (distance historical_data)
      (traffic_delay historical_data) == -2.5.
Proof.
  eexists. split; [reflexivity|].
  split; [vm_compute; reflexivity|].
  split; [vm_compute; reflexivity|].
  split; [eexists; split; [reflexivity | vm_compute; reflexivity]|].
  split; vm_compute; reflexivity.
Qed.

(** C4 as stated fails: the fitted slope is 0.1 away from 1.3 and
    [predict(10)] is 1 away from 10.5, so the fitted model does not match
    the specified scenario to one decimal. *)
Lemma fit_historical_data_not_as_specified :
  exists model,
    fit (distance historical_data) (traffic_delay historical_data) = Ok model /\
    Qabs (coef_ model - 1.3) == 0.1 /\
    (exists t, predict model 10 = Ok t /\ Qabs (t - 10.5) == 1) /\
    ~ scenario_as_specified model.
Proof.
  eexists. split; [reflexivity|].
  split; [vm_compute; reflexivity|].
  split; [eexists; split; [reflexivity | vm_compute; reflexivity]|].
  intros (Hslope & _ & _).
  unfold approx in Hslope. vm_compute in Hslope. now apply Hslope.
Qed.

(** When the fit raises, the module stops there: [main] does not run and
    no request is issued. *)
Lemma run_module_fit_raises (X y : list Q) (e : exn)
    (net : network (Q * Q)) (c : nat) :
  fit X y = Raise e -> run_module (TrainingSet X y) net c = (Raise e, c).
Proof.
  intros Hfit. unfold run_module, bind, lift. cbn [distance traffic_delay].
  now rewrite Hfit.
Qed.




(* ================================================================== *)
(** ** Further properties of the provider boundary *)


(** X2: a response returned by [requests.get] whose status is outside
    400..599 and on which [response.json()] returns a value is handed
    back as that value. *)
Theorem fetch_passes_body_through {Loc : Type} (net : network Loc)
    (api_key : string) (a b : Loc) (n : nat) (r : response) (v : pyjson) :
  net n (Url api_key a b) = inr r ->
  ((status_code r < 400)%Z \/ (600 <= status_code r)%Z) ->
  json r = Ok v ->
  get_real_time_traffic_data net api_key a b n = (Ok v, S n).
Proof.
  intros Hnet Hstatus Hbody.
  rewrite get_real_time_traffic_data_eq. unfold snapshot. rewrite Hnet.
  replace ((400 <=? status_code r) && (status_code r <? 600))%Z with false.
  - now rewrite Hbody.
  - symmetry. apply andb_false_iff.
    destruct Hstatus as [Hlo | Hhi];
      [left; apply Z.leb_gt | right; apply Z.ltb_ge]; lia.
Qed.

Lemma fetch_passes_body_through_witness :
  get_real_time_traffic_data always_ok "YOUR_API_KEY"
    (37.7749, -122.4194) (34.0522, -118.2437) 7%nat
  = (Ok (JObject [("flow"%string, JNumber 1)]), 8%nat).
Proof.
  apply (fetch_passes_body_through always_ok "YOUR_API_KEY"
           (37.7749, -122.4194) (34.0522, -118.2437) 7%nat
           (Response 200 (Ok (JObject [("flow"%string, JNumber 1)])))).
  - reflexivity.
  - left. simpl. lia.
  - reflexivity.
Defined.

(** A 200 reply whose body is [null] is indistinguishable from a failed
    request. *)
Example null_body_is_unavailable :
  fst (optimize_route (Model 1.4 (-2.5)) replies_null three_stops
         "YOUR_API_KEY" 0%nat)
  = fst (optimize_route (Model 1.4 (-2.5)) always_down three_stops
           "YOUR_API_KEY" 0%nat).
Proof. reflexivity. Qed.

(* ================================================================== *)
(** ** Further properties of [optimize_route] *)

(** X3: [optimize_route] calls [requests.get] at most once per leg:
    exactly N - 1 times for N stops when it returns a route, at least
    once and no more than N - 1 times when it raises, and not at all
    (returning the empty route) for an empty or single-stop sequence. *)
Theorem optimize_route_request_count {F : Type} `{PyNumber F} {Loc : Type}
    (model : LinearRegression F) (net : network Loc)
    (locations : list Loc) (api_key : string) (c : nat) :
  (c <= snd (optimize_route model net locations api_key c)
     <= c + (List.length locations - 1))%nat /\
  (forall route,
      fst (optimize_route model net locations api_key c) = Ok route ->
      snd (optimize_route model net locations api_key c)
      = (c + (List.length locations - 1))%nat) /\
  (forall e,
      fst (optimize_route model net locations api_key c) = Raise e ->
      (c < snd (optimize_route model net locations api_key c))%nat) /\
  ((List.length locations <= 1)%nat ->
   optimize_route model net locations api_key c = (Ok [], c)).
Proof.
  rewrite optimize_route_eq.
  destruct (legs_from_calls model net api_key locations c)
    as (Hbounds & Hok & Hraise).
  split; [exact Hbounds|]. split; [|split].
  - intros route Hroute. now destruct (Hok route Hroute).
  - exact Hraise.
  - intros Hshort.
    destruct locations as [|a [|b rest]]; cbn [List.length] in Hshort;
      try lia; reflexivity.
Qed.

Lemma optimize_route_request_count_witness :
  snd (optimize_route (Model 1.4 (-2.5)) first_ok_then_503 three_stops
         "YOUR_API_KEY" 4%nat) = (4 + (List.length three_stops - 1))%nat /\
  (4 < snd (optimize_route (Model 1.4 (-2.5))%Q replies_long_integer
              three_stops "YOUR_API_KEY" 4%nat))%nat.
Proof.
  split.
  - refine (proj1 (proj2 (optimize_route_request_count (Model 1.4 (-2.5))
                            first_ok_then_503 three_stops "YOUR_API_KEY" 4%nat))
                  _ _).
    reflexivity.
  - refine (proj1 (proj2 (proj2 (optimize_route_request_count
                                   (Model 1.4 (-2.5)) replies_long_integer
                                   three_stops "YOUR_API_KEY" 4%nat)))
                  ValueError _).
    reflexivity.
Defined.

(** X4: a returned route is a connected chain over the stops: the starts
    of its legs are the stops without the last, the ends are the stops
    without the first, and each leg ends where the next one starts. *)
Theorem route_is_connected {F : Type} `{PyNumber F} {Loc : Type}
    (model : LinearRegression F) (net : network Loc)
    (locations : list Loc) (api_key : string) (c : nat)
    (route : list (leg Loc F)) :
  fst (optimize_route model net locations api_key c) = Ok route ->
  map (@leg_from Loc F) route = removelast locations /\
  map (@leg_to Loc F) route = tl locations /\
  (forall i r1 r2,
      nth_error route i = Some r1 ->
      nth_error route (S i) = Some r2 ->
      leg_to r1 = leg_from r2).
Proof.
  rewrite optimize_route_eq. intros Hroute.
  destruct (returned_route_starts model api_key net locations c route Hroute)
    as [Hstarts Hends].
  split; [exact Hstarts|]. split; [exact Hends|].
  intros i r1 r2 H1 H2.
  destruct (legs_from_calls model net api_key locations c) as (_ & Hok & _).
  destruct (Hok route Hroute) as [_ Hlen].
  assert (Hi : (S i < List.length route)%nat)
    by (apply nth_error_Some; congruence).
  destruct (nth_error locations i) as [a|] eqn:Ea;
    [|apply nth_error_None in Ea; lia].
  destruct (nth_error locations (S i)) as [b|] eqn:Eb;
    [|apply nth_error_None in Eb; lia].
  destruct (nth_error locations (S (S i))) as [d|] eqn:Ed;
    [|apply nth_error_None in Ed; lia].
  destruct (legs_from_nth model net api_key locations c i a b route
              Hroute Ea Eb) as (v1 & t1 & _ & _ & Hleg1).
  destruct (legs_from_nth model net api_key locations c (S i) b d route
              Hroute Eb Ed) as (v2 & t2 & _ & _ & Hleg2).
  rewrite Hleg1 in H1. rewrite Hleg2 in H2.
  injection H1 as <-. injection H2 as <-. reflexivity.
Qed.

Lemma route_is_connected_witness :
  map (@leg_from (Q * Q) Q)
    [Leg (37.7749, -122.4194) (34.0522, -118.2437)
       (PyFloat ((10 / 50) * 60 + (10 * 1.4 + -2.5) * 1));
     Leg (34.0522, -118.2437) (36.1699, -115.1398) (PyStr unavailable)]
  = removelast three_stops /\
  map (@leg_to (Q * Q) Q)
    [Leg (37.7749, -122.4194) (34.0522, -118.2437)
       (PyFloat ((10 / 50) * 60 + (10 * 1.4 + -2.5) * 1));
     Leg (34.0522, -118.2437) (36.1699, -115.1398) (PyStr unavailable)]
  = tl three_stops /\
  (forall i r1 r2,
      nth_error
        [Leg (37.7749, -122.4194) (34.0522, -118.2437)
           (PyFloat ((10 / 50) * 60 + (10 * 1.4 + -2.5) * 1));
         Leg (34.0522, -118.2437) (36.1699, -115.1398) (PyStr unavailable)]
        i = Some r1 ->
      nth_error
        [Leg (37.7749, -122.4194) (34.0522, -118.2437)
           (PyFloat ((10 / 50) * 60 + (10 * 1.4 + -2.5) * 1));
         Leg (34.0522, -118.2437) (36.1699, -115.1398) (PyStr unavailable)]
        (S i) = Some r2 ->
      leg_to r1 = leg_from r2).
Proof.
  apply (route_is_connected (Model 1.4 (-2.5)) first_ok_then_503 three_stops
           "YOUR_API_KEY" 0%nat).
  reflexivity.
Defined.

(** X5: a trip can be split at any stop: estimating the part up to the
    stop and then the part from it on, one call after the other, and
    appending the two routes gives the result and the request count of a
    single call on the whole trip. *)
Theorem optimize_route_split {F : Type} `{PyNumber F} {Loc : Type}
    (model : LinearRegression F) (net : network Loc)
    (pre : list Loc) (a : Loc) (rest : list Loc) (api_key : string) (c : nat) :
  (first <- optimize_route model net (pre ++ [a]) api_key ;;
   second <- optimize_route model net (a :: rest) api_key ;;
   ret (first ++ second)) c
  = optimize_route model net (pre ++ a :: rest) api_key c.
Proof.
  unfold bind, ret. rewrite !optimize_route_eq.
  rewrite (legs_from_app model api_key net pre a rest c).
  destruct (legs_from model net api_key c (pre ++ [a])) as [[first | e1] n1];
    [|reflexivity].
  rewrite optimize_route_eq.
  now destruct (legs_from model net api_key n1 (a :: rest))
    as [[second | e2] n2].
Qed.

(** X6: the route depends on the provider only through the answers to
    the requests for consecutive pairs of stops, the i-th request being
    the one for the pair (i, i+1): two providers that agree on these give
    the same result. *)
Theorem optimize_route_frame {F : Type} `{PyNumber F} {Loc : Type}
    (model : LinearRegression F) (net1 net2 : network Loc)
    (locations : list Loc) (api_key : string) (c : nat) :
  (forall i a b,
      nth_error locations i = Some a ->
      nth_error locations (S i) = Some b ->
      net1 (c + i)%nat (Url api_key a b) = net2 (c + i)%nat (Url api_key a b)) ->
  optimize_route model net1 locations api_key c
  = optimize_route model net2 locations api_key c.
Proof.
  intros Hagree. rewrite !optimize_route_eq.
  exact (legs_from_frame model api_key net1 net2 locations c Hagree).
Qed.

Lemma optimize_route_frame_witness :
  optimize_route (Model 1.4 (-2.5)) always_ok three_stops "YOUR_API_KEY" 0%nat
  = optimize_route (Model 1.4 (-2.5)) ok_twice_then_timeout three_stops
      "YOUR_API_KEY" 0%nat.
Proof.
  apply (optimize_route_frame (Model 1.4 (-2.5)) always_ok
           ok_twice_then_timeout three_stops "YOUR_API_KEY" 0%nat).
  intros i a b Ha Hb.
  destruct i as [|[|i]]; [reflexivity | reflexivity |].
  simpl in Hb. destruct i; discriminate Hb.
Defined.

(** X7: when every request fails (transport error or status 400..599),
    the route still has its N - 1 legs and every one of them carries the
    unavailable marker. *)
Theorem provider_down_all_unavailable {F : Type} `{PyNumber F} {Loc : Type}
    (model : LinearRegression F) (net : network Loc)
    (locations : list Loc) (api_key : string) (c : nat) :
  (forall n u, provider_fails net n u) ->
  exists route,
    fst (optimize_route model net locations api_key c) = Ok route /\
    List.length route = (List.length locations - 1)%nat /\
    (forall r, In r route -> estimated_time r = PyStr unavailable).
Proof.
  intros Hdown. rewrite optimize_route_eq.
  exact (legs_from_all_fail model api_key net locations c Hdown).
Qed.

Lemma provider_down_all_unavailable_witness :
  exists route,
    fst (optimize_route (Model 1.4 (-2.5)) always_down three_stops
           "YOUR_API_KEY" 0%nat) = Ok route /\
    List.length route = (List.length three_stops - 1)%nat /\
    (forall r, In r route -> estimated_time r = PyStr unavailable).
Proof.
  apply (provider_down_all_unavailable (Model 1.4 (-2.5)) always_down
           three_stops "YOUR_API_KEY" 0%nat).
  intros n u. exact I.
Defined.

(* ================================================================== *)
(** ** Properties of [main] *)



(** The module on its own training data, with the provider down: both
    legs carry the marker. *)
Example run_module_provider_down :
  run_module historical_data always_down 0%nat
  = (Ok (PrintedRoute
           [Leg (37.7749, -122.4194) (34.0522, -118.2437) (PyStr unavailable);
            Leg (34.0522, -118.2437) (36.1699, -115.1398) (PyStr unavailable)]),
     2%nat).
Proof. reflexivity. Qed.

(** A reply on which [response.json()] raises [ValueError]: [main] prints
    the error after one request. *)
Example main_reports_decoder_error :
  main (Model 1.4 (-2.5)) replies_long_integer 0%nat
  = (Ok (PrintedError ValueError), 1%nat).
Proof. reflexivity. Qed.

(** A single stop: the route is empty and no request is issued. *)
Example single_stop_no_request :
  optimize_route (Model 1.4 (-2.5)) always_ok [(37.7749, -122.4194)]
    "YOUR_API_KEY" 0%nat
  = (Ok [], 0%nat).
Proof. reflexivity. Qed.

(** A provider that changes its answer between calls gives two different
    routes: determinism of the provider is needed for that of the route. *)
Example changing_provider_changes_route :
  fst (optimize_route (Model 1.4 (-2.5)) first_ok_then_503 three_stops
         "YOUR_API_KEY" 0%nat)
  <> fst (optimize_route (Model 1.4 (-2.5)) first_ok_then_503 three_stops
            "YOUR_API_KEY" 2%nat).
Proof. vm_compute. discriminate. Qed.
